(** * assisted-service-mcp: the tool adapter of [server.py]

    A shallow embedding of [server.py]: the Python values a tool caller can
    send, the builtins the file relies on ([str], [repr], [dict]), the
    uniform wrapper [handle_api_call], the nine registered tools and the
    module-level start-up sequence.

    The client object [ai] (an [ailib.AssistedClient]) is external: it is a
    section variable, a function from the method, the positional and the
    keyword arguments and the state of the remote service to an outcome and
    a new state.  So are the limits of the interpreter on [str] of what the
    client returns. *)

From Stdlib Require Import List String Ascii ZArith NArith Bool Lia.
From Stdlib Require Import DecimalString.
Import ListNotations.
Open Scope string_scope.

(** ** Python values

    The values that reach the adapter come from the tool protocol (JSON) or
    from the client library.  A [str] is the sequence of its code points,
    each below 256.  Non-integer numbers are left out. *)

#[local] Set Warnings "-register-all".

Inductive value : Type :=
| VNone
| VBool (b : bool)
| VInt (n : Z)
| VStr (s : string)
| VList (items : list value)
| VDict (entries : list (value * value)).

(** [type(v).__name__] *)
Definition type_name (v : value) : string :=
  match v with
  | VNone => "NoneType"
  | VBool _ => "bool"
  | VInt _ => "int"
  | VStr _ => "str"
  | VList _ => "list"
  | VDict _ => "dict"
  end.

Definition str_of_Z (n : Z) : string := NilZero.string_of_int (Z.to_int n).
Definition str_of_nat (n : nat) : string := str_of_Z (Z.of_nat n).

(** [sep.join(parts)] *)
Fixpoint join (sep : string) (parts : list string) : string :=
  match parts with
  | [] => ""
  | [p] => p
  | p :: rest => p ++ sep ++ join sep rest
  end.

(** *** [repr] of a [str] *)

Definition hex_digit (n : N) : ascii :=
  match n with
  | 0 => "0" | 1 => "1" | 2 => "2" | 3 => "3" | 4 => "4" | 5 => "5"
  | 6 => "6" | 7 => "7" | 8 => "8" | 9 => "9" | 10 => "a" | 11 => "b"
  | 12 => "c" | 13 => "d" | 14 => "e" | _ => "f"
  end%N%char.

Definition hex_escape (n : N) : string :=
  String "\" (String "x" (String (hex_digit (n / 16)) (String (hex_digit (n mod 16)) ""))).

(** Code points below 256 that [str.isprintable] rejects. *)
Definition printable (n : N) : bool :=
  ((32 <=? n) && (n <? 127) || (161 <=? n) && negb (n =? 173))%N.

Definition repr_char (quote c : ascii) : string :=
  let n := N_of_ascii c in
  if Ascii.eqb c quote || Ascii.eqb c "\" then String "\" (String c "")
  else if (n =? 9)%N then "\t"
  else if (n =? 10)%N then "\n"
  else if (n =? 13)%N then "\r"
  else if printable n then String c ""
  else hex_escape n.

Fixpoint has_char (c : ascii) (s : string) : bool :=
  match s with
  | EmptyString => false
  | String d rest => Ascii.eqb c d || has_char c rest
  end.

Fixpoint repr_chars (quote : ascii) (s : string) : string :=
  match s with
  | EmptyString => ""
  | String c rest => repr_char quote c ++ repr_chars quote rest
  end.

Definition dquote : ascii := "034"%char.

Definition repr_str (s : string) : string :=
  let quote : ascii :=
    if has_char "'" s && negb (has_char dquote s) then dquote else "'"%char in
  String quote (repr_chars quote s ++ String quote "").

(** *** [repr] and [str] *)

Fixpoint py_repr (v : value) : string :=
  match v with
  | VNone => "None"
  | VBool true => "True"
  | VBool false => "False"
  | VInt n => str_of_Z n
  | VStr s => repr_str s
  | VList items => "[" ++ join ", " (map py_repr items) ++ "]"
  | VDict entries =>
      "{" ++ join ", " (map (fun kv => py_repr (fst kv) ++ ": " ++ py_repr (snd kv)) entries) ++ "}"
  end.

Definition py_str (v : value) : string :=
  match v with
  | VStr s => s
  | _ => py_repr v
  end.

(** [repr] of the tuple [args] of a call. *)
Definition repr_tuple (items : list value) : string :=
  match items with
  | [x] => "(" ++ py_repr x ++ ",)"
  | _ => "(" ++ join ", " (map py_repr items) ++ ")"
  end.

(** A keyword dictionary [**kwargs] as a [dict] value. *)
Definition kwargs_value (kwargs : list (string * value)) : value :=
  VDict (map (fun kv => (VStr (fst kv), snd kv)) kwargs).


(** ** Faults and outcomes

    A fault is a Python exception derived from [Exception]: what the
    clause [except Exception] of [handle_api_call] matches.  [exc_is_timeout]
    says whether it is an instance of [asyncio.TimeoutError], [exc_msg] is
    [str(e)].  An exception that is not derived from [Exception] is an
    [exit_signal]: no clause [except Exception] matches it. *)

Record exc : Type := mkExc {
  exc_type : string;
  exc_is_timeout : bool;
  exc_msg : string
}.

Definition ValueError (msg : string) : exc := mkExc "ValueError" false msg.
Definition TypeError (msg : string) : exc := mkExc "TypeError" false msg.

Inductive exit_signal : Type :=
| SystemExit
| KeyboardInterrupt
| GeneratorExit
| CancelledError.

(** A call returns, raises a fault or is left by an exit signal. *)
Inductive outcome (A : Type) : Type :=
| Ret (a : A)
| Raise (e : exc)
| Exit (sig : exit_signal).
Arguments Ret {A} a.
Arguments Raise {A} e.
Arguments Exit {A} sig.

(** ** The builtin [dict(arg, **kwargs)] *)

Definition hashable (k : value) : bool :=
  match k with
  | VList _ | VDict _ => false
  | _ => true
  end.

Definition as_number (v : value) : option Z :=
  match v with
  | VBool b => Some (if b then 1 else 0)%Z
  | VInt n => Some n
  | _ => None
  end.

(** [a == b] on hashable values ([True == 1]). *)
Definition key_eqb (a b : value) : bool :=
  match a, b with
  | VNone, VNone => true
  | VStr s, VStr t => String.eqb s t
  | _, _ =>
      match as_number a, as_number b with
      | Some x, Some y => Z.eqb x y
      | _, _ => false
      end
  end.

(** [d[k] = v]: an existing key keeps its place and its key object. *)
Fixpoint dict_setitem (d : list (value * value)) (k v : value) : list (value * value) :=
  match d with
  | [] => [(k, v)]
  | (k', v') :: rest =>
      if key_eqb k' k then (k', v) :: rest else (k', v') :: dict_setitem rest k v
  end.

Fixpoint chars_of (s : string) : list value :=
  match s with
  | EmptyString => []
  | String c rest => VStr (String c "") :: chars_of rest
  end.

(** [iter(v)], for the iterable values. *)
Definition py_iter (v : value) : option (list value) :=
  match v with
  | VStr s => Some (chars_of s)
  | VList items => Some items
  | VDict entries => Some (map fst entries)
  | _ => None
  end.

(** The loop of [dict] over a sequence of pairs; [i] counts the elements. *)
Fixpoint merge_from_seq2 (d : list (value * value)) (i : nat) (items : list value)
  : outcome (list (value * value)) :=
  match items with
  | [] => Ret d
  | item :: rest =>
      match py_iter item with
      | None =>
          Raise (TypeError ("cannot convert dictionary update sequence element #"
                            ++ str_of_nat i ++ " to a sequence"))
      | Some [k; v] =>
          if hashable k then merge_from_seq2 (dict_setitem d k v) (S i) rest
          else Raise (TypeError ("unhashable type: '" ++ type_name k ++ "'"))
      | Some elems =>
          Raise (ValueError ("dictionary update sequence element #" ++ str_of_nat i
                             ++ " has length " ++ str_of_nat (List.length elems)
                             ++ "; 2 is required"))
      end
  end.

Definition merge_kwargs (d : list (value * value)) (kwargs : list (string * value))
  : list (value * value) :=
  fold_left (fun acc kv => dict_setitem acc (VStr (fst kv)) (snd kv)) kwargs d.

Definition py_dict (arg : value) (kwargs : list (string * value)) : outcome value :=
  match arg with
  | VDict entries => Ret (VDict (merge_kwargs entries kwargs))
  | _ =>
      match py_iter arg with
      | None => Raise (TypeError ("'" ++ type_name arg ++ "' object is not iterable"))
      | Some items =>
          match merge_from_seq2 [] 0 items with
          | Ret d => Ret (VDict (merge_kwargs d kwargs))
          | Raise e => Raise e
          | Exit sig => Exit sig
          end
      end
  end.


(** ** Events, the client and the adapter monad *)

Inductive level : Type := INFO | ERROR.

(** The methods of the client object [ai] that the file calls. *)
Inductive method : Type :=
| ai_list_clusters
| ai_list_events
| ai_list_manifests
| ai_create_cluster
| ai_delete_cluster
| ai_get_cluster
| ai_update_cluster
| ai_upload_manifests
| ai_delete_manifests.

(** [func.__name__] *)
Definition method_name (func : method) : string :=
  match func with
  | ai_list_clusters => "list_clusters"
  | ai_list_events => "list_events"
  | ai_list_manifests => "list_manifests"
  | ai_create_cluster => "create_cluster"
  | ai_delete_cluster => "delete_cluster"
  | ai_get_cluster => "get_cluster"
  | ai_update_cluster => "update_cluster"
  | ai_upload_manifests => "upload_manifests"
  | ai_delete_manifests => "delete_manifests"
  end.

(** What the process does to the outside: a record handed to [logger], a
    client method run by [asyncio.to_thread], the construction of the
    client, the registration of a tool and the call of [mcp.run]. *)
Inductive event : Type :=
| EvLog (lvl : level) (msg : string)
| EvCall (func : method) (args : list value) (kwargs : list (string * value))
| EvInit (url offlinetoken : string) (debug : bool)
| EvTool (name description : string)
| EvRun (transport : string).

Definition is_call (ev : event) : bool :=
  match ev with EvCall _ _ _ => true | _ => false end.



(** How [mcp.run] ends: it returns, the user interrupts it
    ([KeyboardInterrupt]) or it raises a fault. *)
Inductive serve_outcome : Type :=
| ServeReturned
| ServeInterrupted
| ServeCrashed (e : exc).

(** [s1 in s2] on strings. *)
Fixpoint contains (needle hay : string) : bool :=
  String.prefix needle hay
  || match hay with
     | EmptyString => false
     | String _ rest => contains needle rest
     end.

(** [os.getenv(key)] *)
Fixpoint getenv (environ : list (string * string)) (key : string) : option string :=
  match environ with
  | [] => None
  | (k, v) :: rest => if String.eqb k key then Some v else getenv rest key
  end.

(** Truth value of [os.getenv(...)]: [None] and the empty string are false. *)
Definition truthy (o : option string) : bool :=
  match o with
  | None => false
  | Some s => negb (String.eqb s "")
  end.

(** Keyword lookup of a call. *)
Fixpoint lookup (key : string) (kwargs : list (string * value)) : option value :=
  match kwargs with
  | [] => None
  | (k, v) :: rest => if String.eqb k key then Some v else lookup key rest
  end.

(** Binding of the keyword arguments of a call to the parameters of a
    [def]: a parameter that is not supplied takes its default, a parameter
    without default is required, a keyword that names no parameter is
    refused.  [None] is a call the signature refuses. *)
Fixpoint bind_params (params : list (string * option value))
    (kwargs : list (string * value)) : option (list value) :=
  match params with
  | [] => Some []
  | (p, default) :: rest =>
      match (match lookup p kwargs with Some v => Some v | None => default end),
            bind_params rest kwargs with
      | Some v, Some vs => Some (v :: vs)
      | _, _ => None
      end
  end.

Definition known_keyword (params : list (string * option value)) (kv : string * value) : bool :=
  existsb (String.eqb (fst kv)) (map fst params).

Definition bind_args (params : list (string * option value))
    (kwargs : list (string * value)) : option (list value) :=
  if forallb (known_keyword params) kwargs then bind_params params kwargs else None.

(** The record [handle_api_call] logs before it calls the client. *)
Definition calling (func : method) (args : list value) (kwargs : list (string * value))
  : event :=
  EvLog INFO ("Calling " ++ method_name func ++ " with args: " ++ repr_tuple args
              ++ ", kwargs: " ++ py_repr (kwargs_value kwargs)).

(** The string the [except] clauses of [handle_api_call] build from a
    fault. *)
Definition error_text (func : method) (e : exc) : string :=
  if exc_is_timeout e then "Operation timed out"
  else "Unexpected error in " ++ method_name func ++ ": " ++ exc_msg e.

(** The record a tool logs first, by the client method it is bound to
    and its parameters in the order of the [def]. *)
Definition own_record (func : method) (vs : list value) : string :=
  match func, vs with
  | ai_list_clusters, [] => "Listing clusters"
  | ai_list_events, [cluster_name] =>
      "Listing events for cluster: " ++ py_str cluster_name
  | ai_list_manifests, [cluster_name] =>
      "Listing manifests for cluster: " ++ py_str cluster_name
  | ai_create_cluster,
    [cluster_name; high_availability_mode; openshift_version; base_dns_domain; _; _; _] =>
      "Creating cluster: " ++ py_str cluster_name
      ++ ", base_dns_domain: " ++ py_str base_dns_domain
      ++ ", version: " ++ py_str openshift_version
      ++ ", high_availability_mode: " ++ py_str high_availability_mode
  | ai_delete_cluster, [cluster_name] => "Deleting cluster: " ++ py_str cluster_name
  | ai_get_cluster, [cluster_name] => "Getting info for cluster: " ++ py_str cluster_name
  | ai_update_cluster, [cluster_name] => "Updating cluster: " ++ py_str cluster_name
  | ai_upload_manifests, [cluster_name; _; _] =>
      "Creating manifests for cluster: " ++ py_str cluster_name
  | ai_delete_manifests, [cluster_name] =>
      "Deleting manifests for cluster: " ++ py_str cluster_name
  | _, _ => ""
  end.

(** The value a parameter is bound to in a call: the keyword argument,
    or the default when the call leaves it out. *)
Definition arg (kwargs : list (string * value)) (name : string) (default : value) : value :=
  match lookup name kwargs with
  | Some v => v
  | None => default
  end.

(** The three parts of a finished run. *)
Definition result {A S : Type} (run : outcome A * list event * S) : outcome A := fst (fst run).
Definition events {A S : Type} (run : outcome A * list event * S) : list event := snd (fst run).
Definition final {A S : Type} (run : outcome A * list event * S) : S := snd run.

(** Constants of [server.py]. *)
Definition API_URL : string := "https://api.openshift.com".
Definition DEBUG_MODE : bool := true.

(** [d.get(k)]: the value stored under a key equal to [k]. *)
Fixpoint dict_getitem (d : list (value * value)) (k : value) : option value :=
  match d with
  | [] => None
  | (k', v') :: rest => if key_eqb k' k then Some v' else dict_getitem rest k
  end.

Definition is_run (ev : event) : bool :=
  match ev with EvRun _ => true | _ => false end.
Definition is_tool (ev : event) : bool :=
  match ev with EvTool _ _ => true | _ => false end.

(** The events before the server is run. *)
Fixpoint before_run (evs : list event) : list event :=
  match evs with
  | [] => []
  | ev :: rest => if is_run ev then [] else ev :: before_run rest
  end.

(** ** Client stubs *)

Definition stub_returning (v : value)
  : method -> list value -> list (string * value) -> unit -> outcome value * unit :=
  fun _ _ _ st => (Ret v, st).

Definition stub_raising (e : exc)
  : method -> list value -> list (string * value) -> unit -> outcome value * unit :=
  fun _ _ _ st => (Raise e, st).

Definition stub_init : string -> string -> bool -> unit -> outcome unit * unit :=
  fun _ _ _ st => (Ret tt, st).

Definition stub_init_failing (e : exc)
  : string -> string -> bool -> unit -> outcome unit * unit :=
  fun _ _ _ st => (Raise e, st).


Definition stub_exiting (sig : exit_signal)
  : method -> list value -> list (string * value) -> unit -> outcome value * unit :=
  fun _ _ _ st => (Exit sig, st).

(** An interpreter with the default limit of CPython on the digits of an
    integer ([sys.int_info.default_max_str_digits], with the message of
    CPython 3.12), in which no nesting is too deep. *)
Definition int_max_str_digits : nat := 4300.

Fixpoint over_digit_limit (v : value) : bool :=
  match v with
  | VInt n => Nat.ltb int_max_str_digits (String.length (str_of_Z (Z.abs n)))
  | VList items => existsb over_digit_limit items
  | VDict entries =>
      existsb (fun kv => over_digit_limit (fst kv) || over_digit_limit (snd kv)) entries
  | _ => false
  end.

Definition cpython_limits (v : value) : option exc :=
  if over_digit_limit v then
    Some (ValueError "Exceeds the limit (4300 digits) for integer string conversion; use sys.set_int_max_str_digits() to increase the limit")
  else None.

Definition NotFound (msg : string) : exc := mkExc "NotFound" false msg.

(** ** The adapter *)

Section Adapter.

(** The state of the remote service, the client object [ai] and its
    constructor [AssistedClient(...)]. *)
Variable ClientState : Type.
Variable ai :
  method -> list value -> list (string * value) -> ClientState -> outcome value * ClientState.
Variable AssistedClient :
  string -> string -> bool -> ClientState -> outcome unit * ClientState.

(** The limits of the interpreter on [str]: [str_raises v] is the fault
    that [str(v)] raises on an object [v] the client returned
    ([ValueError] for an integer above the digit limit, [RecursionError]
    for a nesting that is too deep), and [None] when [str(v)] returns,
    which it then does with [py_str v].  The arguments of a tool are built
    by the interpreter from the request within these limits; [str] of an
    argument returns. *)
Variable str_raises : value -> option exc.

(** A computation returns or raises, emits events and changes the state
    of the remote service. *)
Definition M (A : Type) : Type := ClientState -> outcome A * list event * ClientState.

Definition ret {A : Type} (a : A) : M A := fun st => (Ret a, [], st).

Definition raise {A : Type} (e : exc) : M A := fun st => (Raise e, [], st).

Definition bind {A B : Type} (m : M A) (k : A -> M B) : M B :=
  fun st =>
    match m st with
    | (Ret a, evs, st1) =>
        let '(r, evs', st2) := k a st1 in (r, (evs ++ evs')%list, st2)
    | (Raise e, evs, st1) => (Raise e, evs, st1)
    | (Exit sig, evs, st1) => (Exit sig, evs, st1)
    end.

(** [try: body except ... as e: handler e] where the clauses match the
    exceptions derived from [Exception]: a fault goes to the handler, an
    exit signal passes the clauses and leaves the statement. *)
Definition try_except {A : Type} (body : M A) (handler : exc -> M A) : M A :=
  fun st =>
    match body st with
    | (Ret a, evs, st1) => (Ret a, evs, st1)
    | (Raise e, evs, st1) =>
        let '(r, evs', st2) := handler e st1 in (r, (evs ++ evs')%list, st2)
    | (Exit sig, evs, st1) => (Exit sig, evs, st1)
    end.

Definition lift {A : Type} (o : outcome A) : M A := fun st => (o, [], st).

Definition emit (ev : event) : M unit := fun st => (Ret tt, [ev], st).

Definition logger_info (msg : string) : M unit := emit (EvLog INFO msg).
Definition logger_error (msg : string) : M unit := emit (EvLog ERROR msg).

(** [await asyncio.to_thread(func, *args, **kwargs)] *)
Definition to_thread (func : method) (args : list value) (kwargs : list (string * value))
  : M value :=
  fun st => let '(r, st') := ai func args kwargs st in (r, [EvCall func args kwargs], st').

Notation "x <- m ;; k" := (bind m (fun x => k))
  (at level 61, m at next level, right associativity).
Notation "m ;; k" := (bind m (fun _ => k))
  (at level 61, right associativity).

(** [str(result)], and [{result}] in an f-string, on what the client
    returned. *)
Definition str (result : value) : M string :=
  match str_raises result with
  | Some e => raise e
  | None => ret (py_str result)
  end.

Definition handle_api_call (func : method) (args : list value)
    (kwargs : list (string * value)) : M string :=
  try_except
    (logger_info ("Calling " ++ method_name func ++ " with args: " ++ repr_tuple args
                  ++ ", kwargs: " ++ py_repr (kwargs_value kwargs)) ;;
     result <- to_thread func args kwargs ;;
     text <- str result ;;
     logger_info ("result is: " ++ text) ;;
     str result)
    (fun e =>
       if exc_is_timeout e then
         let error_msg := "Operation timed out" in
         logger_error error_msg ;;
         ret error_msg
       else
         let error_msg := "Unexpected error in " ++ method_name func ++ ": " ++ exc_msg e in
         logger_error error_msg ;;
         ret error_msg).

(** *** The tools *)

Definition list_clusters : M string :=
  logger_info "Listing clusters" ;;
  handle_api_call ai_list_clusters [] [].

Definition list_events (cluster_name : value) : M string :=
  logger_info ("Listing events for cluster: " ++ py_str cluster_name) ;;
  handle_api_call ai_list_events [cluster_name] [].

Definition list_manifests (cluster_name : value) : M string :=
  logger_info ("Listing manifests for cluster: " ++ py_str cluster_name) ;;
  handle_api_call ai_list_manifests [cluster_name] [].

Definition create_cluster (cluster_name high_availability_mode openshift_version
    base_dns_domain cluster_network_cidr pull_secret ssh_public_key : value) : M string :=
  logger_info ("Creating cluster: " ++ py_str cluster_name
               ++ ", base_dns_domain: " ++ py_str base_dns_domain
               ++ ", version: " ++ py_str openshift_version
               ++ ", high_availability_mode: " ++ py_str high_availability_mode) ;;
  overrides <- lift (py_dict cluster_name
                       [("base_dns_domain", base_dns_domain);
                        ("openshift_version", openshift_version);
                        ("high_availability_mode", high_availability_mode)]) ;;
  handle_api_call ai_create_cluster [] [("overrides", overrides)].

Definition delete_cluster (cluster_name : value) : M string :=
  logger_info ("Deleting cluster: " ++ py_str cluster_name) ;;
  handle_api_call ai_delete_cluster [cluster_name] [].

Definition cluster_info (cluster_name : value) : M string :=
  logger_info ("Getting info for cluster: " ++ py_str cluster_name) ;;
  handle_api_call ai_get_cluster [cluster_name] [].

Definition update_cluster (cluster_name : value) : M string :=
  logger_info ("Updating cluster: " ++ py_str cluster_name) ;;
  handle_api_call ai_update_cluster [cluster_name] [].

Definition create_manifests (cluster_name directory openshift : value) : M string :=
  logger_info ("Creating manifests for cluster: " ++ py_str cluster_name) ;;
  handle_api_call ai_upload_manifests [cluster_name; directory] [("openshift", VBool false)].

Definition delete_manifests (cluster_name : value) : M string :=
  logger_info ("Deleting manifests for cluster: " ++ py_str cluster_name) ;;
  handle_api_call ai_delete_manifests [cluster_name] [].

(** *** The registry

    What [@mcp.tool(description=...)] records for a function: its name,
    the description, its parameters with their defaults, and the function
    itself, applied to the bound parameters in the order of the [def].
    [tool_method] is the client method the body hands to
    [handle_api_call]. *)

Record tool : Type := mkTool {
  tool_name : string;
  tool_description : string;
  tool_params : list (string * option value);
  tool_method : method;
  tool_fn : list value -> option (M string)
}.

Definition apply0 (f : M string) (vs : list value) : option (M string) :=
  match vs with
  | [] => Some f
  | _ => None
  end.

Definition apply1 (f : value -> M string) (vs : list value) : option (M string) :=
  match vs with
  | [a] => Some (f a)
  | _ => None
  end.

Definition apply3 (f : value -> value -> value -> M string) (vs : list value)
  : option (M string) :=
  match vs with
  | [a; b; c] => Some (f a b c)
  | _ => None
  end.

Definition apply7
    (f : value -> value -> value -> value -> value -> value -> value -> M string)
    (vs : list value) : option (M string) :=
  match vs with
  | [a; b; c; d; e; f'; g] => Some (f a b c d e f' g)
  | _ => None
  end.

Definition registered_tools : list tool :=
  [ mkTool "list_clusters" "list openshift clusters"
      [] ai_list_clusters (apply0 list_clusters);
    mkTool "list_events" "list openshift cluster events"
      [("cluster_name", None)] ai_list_events (apply1 list_events);
    mkTool "list_manifests" "list openshift cluster manifests"
      [("cluster_name", None)] ai_list_manifests (apply1 list_manifests);
    mkTool "create_cluster" "create a new openshift cluster"
      [("cluster_name", Some VNone);
       ("high_availability_mode", Some (VStr "Full"));
       ("openshift_version", Some VNone);
       ("base_dns_domain", Some VNone);
       ("cluster_network_cidr", Some (VStr "10.128.0.0/14"));
       ("pull_secret", Some VNone);
       ("ssh_public_key", Some VNone)]
      ai_create_cluster (apply7 create_cluster);
    mkTool "delete_cluster" "delete an openshift cluster"
      [("cluster_name", None)] ai_delete_cluster (apply1 delete_cluster);
    mkTool "cluster_info" "get information about an openshift cluster"
      [("cluster_name", None)] ai_get_cluster (apply1 cluster_info);
    mkTool "update_cluster" "update an openshift cluster"
      [("cluster_name", None)] ai_update_cluster (apply1 update_cluster);
    mkTool "create_manifests" "create manifests for an openshift cluster"
      [("cluster_name", None); ("directory", None); ("openshift", Some (VBool false))]
      ai_upload_manifests (apply3 create_manifests);
    mkTool "delete_manifests" "delete manifests for an openshift cluster"
      [("cluster_name", None)] ai_delete_manifests (apply1 delete_manifests) ].

(** A call of a tool with keyword arguments. *)
Definition invoke (t : tool) (kwargs : list (string * value)) : option (M string) :=
  match bind_args (tool_params t) kwargs with
  | Some vs => tool_fn t vs
  | None => None
  end.

(** The dispatch of the hosting runtime: the tool registered under
    [name], invoked with [kwargs]. *)
Definition call_tool (name : string) (kwargs : list (string * value))
  : option (M string) :=
  match find (fun t => String.eqb (tool_name t) name) registered_tools with
  | Some t => invoke t kwargs
  | None => None
  end.

(** *** Start-up: the module body from [os.getenv] on *)

Fixpoint register (tools : list tool) : M unit :=
  match tools with
  | [] => ret tt
  | t :: rest => emit (EvTool (tool_name t) (tool_description t)) ;; register rest
  end.

(** The events of [register registered_tools]. *)
Definition registrations : list event :=
  map (fun t => EvTool (tool_name t) (tool_description t)) registered_tools.

(** [mcp.run(transport="sse")]; [served] is how it ends. *)
Definition mcp_run (served : serve_outcome) (transport : string) : M serve_outcome :=
  emit (EvRun transport) ;;
  match served with
  | ServeCrashed e => raise e
  | _ => ret served
  end.

Definition main (served : serve_outcome) : M unit :=
  try_except
    (logger_info "Starting MCP server..." ;;
     r <- mcp_run served "sse" ;;
     match r with
     | ServeInterrupted => logger_info "Server stopped by user"
     | _ => ret tt
     end)
    (fun e =>
       logger_error ("Server crashed with error: " ++ exc_msg e) ;;
       raise e).

(** [AssistedClient(API_URL, token=None, offlinetoken=offlinetoken,
    debug=DEBUG_MODE, ca=None, cert=None)] *)
Definition new_client (url offlinetoken : string) (debug : bool) : M unit :=
  fun st =>
    let '(r, st') := AssistedClient url offlinetoken debug st in
    (r, [EvInit url offlinetoken debug], st').

Definition startup (environ : list (string * string)) (name__ : string)
    (served : serve_outcome) : M unit :=
  let offlinetoken := getenv environ "OFFLINE_TOKEN" in
  if negb (truthy offlinetoken) then
    raise (ValueError "OFFLINE_TOKEN environment variable is not set")
  else
    let token := match offlinetoken with Some s => s | None => "" end in
    try_except
      (new_client API_URL token DEBUG_MODE ;;
       logger_info "Successfully initialized AssistedClient")
      (fun e =>
         logger_error ("Failed to initialize AssistedClient: " ++ exc_msg e) ;;
         raise e) ;;
    register registered_tools ;;
    if String.eqb name__ "__main__" then main served else ret tt.

(** ** Properties *)

(** *** Strings *)



(** *** One run of [handle_api_call] *)

Lemma handle_api_call_run func args kwargs st :
  handle_api_call func args kwargs st =
  let pre := [calling func args kwargs; EvCall func args kwargs] in
  let failed e st' :=
    (Ret (error_text func e), (pre ++ [EvLog ERROR (error_text func e)])%list, st') in
  match ai func args kwargs st with
  | (Ret v, st') =>
      match str_raises v with
      | None =>
          (Ret (py_str v), (pre ++ [EvLog INFO ("result is: " ++ py_str v)])%list, st')
      | Some e => failed e st'
      end
  | (Raise e, st') => failed e st'
  | (Exit sig, st') => (Exit sig, pre, st')
  end.
Proof.
  unfold handle_api_call, try_except, bind, to_thread, str, logger_info, logger_error,
    emit, ret, raise, calling, error_text.
  destruct (ai func args kwargs st) as [[v|e|sig] st']; cbn [app].
  - destruct (str_raises v) as [e|]; cbn [app].
    + destruct (exc_is_timeout e); reflexivity.
    + reflexivity.
  - destruct (exc_is_timeout e); reflexivity.
  - reflexivity.
Qed.

(** *** One run of a registered tool

    Every tool logs one record and hands its bound method to
    [handle_api_call]; [create_cluster] builds a dictionary in between,
    and stops there when [dict] raises. *)

Lemma merge_from_seq2_no_exit items d i sig : merge_from_seq2 d i items <> Exit sig.
Proof using.
  revert d i. induction items as [|item rest IH]; intros d i; cbn [merge_from_seq2].
  - discriminate.
  - destruct (py_iter item) as [[|k [|v [|x elems]]]|]; try discriminate.
    destruct (hashable k); [apply IH | discriminate].
Qed.

Lemma py_dict_no_exit arg kwargs sig : py_dict arg kwargs <> Exit sig.
Proof using.
  unfold py_dict. destruct arg; cbn [py_iter]; try discriminate;
    match goal with
    | |- context [merge_from_seq2 ?d ?i ?l] =>
        pose proof (merge_from_seq2_no_exit l d i) as H;
        destruct (merge_from_seq2 d i l) as [x|e|sig']; try discriminate;
        exfalso; exact (H sig' eq_refl)
    end.
Qed.

Ltac tool_cases H :=
  repeat (destruct H as [H|H]; [subst|]); [..|destruct H].

Ltac args_shape vs H :=
  repeat (destruct vs as [|? vs]; try discriminate H);
  injection H as H; subst.

Lemma log_then_call msg func args kwargs st :
  (logger_info msg ;; handle_api_call func args kwargs) st =
  let '(r, evs, st') := handle_api_call func args kwargs st in
  (r, EvLog INFO msg :: evs, st').
Proof.
  unfold bind, logger_info, emit.
  destruct (handle_api_call func args kwargs st) as [[r evs] st']. reflexivity.
Qed.

Lemma tool_run t vs body st :
  In t registered_tools ->
  tool_fn t vs = Some body ->
  (exists msg args kwargs,
      msg = own_record (tool_method t) vs
      /\ body st =
         let '(r, evs, st') := handle_api_call (tool_method t) args kwargs st in
         (r, EvLog INFO msg :: evs, st'))
  \/ (exists msg e,
         tool_name t = "create_cluster" /\ body st = (Raise e, [EvLog INFO msg], st)).
Proof.
  intros Ht Hfn. unfold registered_tools in Ht.
  tool_cases Ht; simpl in Hfn;
    unfold apply0, apply1, apply3, apply7 in Hfn; args_shape vs Hfn.
  4: {
    unfold create_cluster, bind, logger_info, emit, lift. simpl.
    match goal with
    | |- context [py_dict ?a ?k] =>
        pose proof (py_dict_no_exit a k) as Hx; destruct (py_dict a k) as [d|e|sig]
    end.
    3: exfalso; exact (Hx sig eq_refl).
    - left. eexists. exists [], [("overrides", d)]. split; [reflexivity|]. simpl.
      destruct (handle_api_call ai_create_cluster [] [("overrides", d)] st)
        as [[r evs] st'].
      reflexivity.
    - right. do 2 eexists. split; reflexivity.
  }
  all: left; do 3 eexists; (split; [reflexivity|]);
    unfold list_clusters, list_events, list_manifests, delete_cluster, cluster_info,
      update_cluster, create_manifests, delete_manifests; apply log_then_call.
Qed.

(** The same, with [handle_api_call] run: either [dict] raised in
    [create_cluster], or the client was called once. *)
Lemma tool_run_client t vs body st :
  In t registered_tools ->
  tool_fn t vs = Some body ->
  (exists msg e,
      tool_name t = "create_cluster" /\ body st = (Raise e, [EvLog INFO msg], st))
  \/ (exists msg args kwargs,
         let func := tool_method t in
         let pre := [EvLog INFO msg; calling func args kwargs; EvCall func args kwargs] in
         let failed e st' :=
           (Ret (error_text func e), (pre ++ [EvLog ERROR (error_text func e)])%list, st') in
         msg = own_record func vs /\
         body st =
         match ai func args kwargs st with
         | (Ret v, st') =>
             match str_raises v with
             | None =>
                 (Ret (py_str v),
                  (pre ++ [EvLog INFO ("result is: " ++ py_str v)])%list, st')
             | Some e => failed e st'
             end
         | (Raise e, st') => failed e st'
         | (Exit sig, st') => (Exit sig, pre, st')
         end).
Proof.
  intros Ht Hfn.
  destruct (tool_run t vs body st Ht Hfn)
    as [(msg & args & kwargs & Hm & E)|(msg & e & Hn & E)].
  - right. exists msg, args, kwargs. cbv zeta. split; [exact Hm|].
    rewrite E, handle_api_call_run. cbv zeta.
    destruct (ai (tool_method t) args kwargs st) as [[v|e|sig] st'];
      [destruct (str_raises v)| |]; reflexivity.
  - left. exists msg, e. split; assumption.
Qed.




(** Every tool returns a string, except [create_cluster] when [dict]
    raises on its [cluster_name], where no client call is made, and except
    when an exit signal leaves the client call. *)
Lemma tool_returns_unless_dict_raises t vs body st :
  In t registered_tools ->
  tool_fn t vs = Some body ->
  (exists r, result (body st) = Ret r)
  \/ (tool_name t = "create_cluster"
      /\ exists e, result (body st) = Raise e
                   /\ filter is_call (events (body st)) = [])
  \/ (exists sig, result (body st) = Exit sig).
Proof.
  intros Ht Hfn.
  destruct (tool_run_client t vs body st Ht Hfn)
    as [(msg & e & Hn & E)|(msg & args & kwargs & _ & E)]; cbv zeta in *; rewrite E.
  - right. left. split; [assumption|]. exists e. split; reflexivity.
  - destruct (ai (tool_method t) args kwargs st) as [[v|e|sig] st'];
      [destruct (str_raises v)| |].
    all: try (left; eexists; reflexivity).
    right. right. eexists. reflexivity.
Qed.

(** C1 (the code breaks it): [create_cluster] called with a non-empty
    string as [cluster_name] - the name of the cluster, as its docstring
    says - raises [ValueError] out of the tool: [dict(cluster_name, ...)]
    is evaluated before [handle_api_call] is entered, so nothing recovers
    the fault and the caller gets no string. *)
Theorem create_cluster_name_raises
    (c : ascii) (s : string)
    (high_availability_mode openshift_version base_dns_domain
     cluster_network_cidr pull_secret ssh_public_key : value) (st : ClientState) :
  create_cluster (VStr (String c s)) high_availability_mode openshift_version
    base_dns_domain cluster_network_cidr pull_secret ssh_public_key st
  = (Raise (ValueError
              "dictionary update sequence element #0 has length 1; 2 is required"),
     [EvLog INFO ("Creating cluster: " ++ String c s
                  ++ ", base_dns_domain: " ++ py_str base_dns_domain
                  ++ ", version: " ++ py_str openshift_version
                  ++ ", high_availability_mode: " ++ py_str high_availability_mode)],
     st).
Proof. reflexivity. Qed.

(** A run in which a client call is seen is a run of the second kind, and
    the call seen is the call of the bound method. *)
Lemma tool_call_inv t vs body st func args kwargs :
  In t registered_tools ->
  tool_fn t vs = Some body ->
  In (EvCall func args kwargs) (events (body st)) ->
  func = tool_method t
  /\ exists msg,
      let pre := [EvLog INFO msg; calling func args kwargs; EvCall func args kwargs] in
      let failed e st' :=
        (Ret (error_text func e), (pre ++ [EvLog ERROR (error_text func e)])%list, st') in
      msg = own_record func vs /\
      body st =
      match ai func args kwargs st with
      | (Ret v, st') =>
          match str_raises v with
          | None =>
              (Ret (py_str v),
               (pre ++ [EvLog INFO ("result is: " ++ py_str v)])%list, st')
          | Some e => failed e st'
          end
      | (Raise e, st') => failed e st'
      | (Exit sig, st') => (Exit sig, pre, st')
      end.
Proof.
  intros Ht Hfn Hcall.
  destruct (tool_run_client t vs body st Ht Hfn)
    as [(msg & e & Hn & E)|(msg & a & k & Hm & E)]; cbv zeta in *.
  - rewrite E in Hcall. simpl in Hcall. destruct Hcall as [Hc|[]]. discriminate Hc.
  - assert (Hsame : func = tool_method t /\ args = a /\ kwargs = k).
    { rewrite E in Hcall.
      destruct (ai (tool_method t) a k st) as [[v|e|sig] st'];
        [destruct (str_raises v)| |];
        simpl in Hcall; unfold calling in Hcall;
        repeat (destruct Hcall as [Hc|Hcall];
                [try discriminate Hc; injection Hc as -> -> ->; auto|]);
        destruct Hcall. }
    destruct Hsame as (-> & -> & ->). split; [reflexivity|].
    exists msg. cbv zeta. split; [exact Hm | exact E].
Qed.

(** C2: for every registered tool, when the client method it calls
    returns a value [v] and [str(v)] returns, the tool returns exactly
    [str(v)]; the method called is the one bound to the tool. *)
Theorem result_is_str_of_returned_value t vs body st func args kwargs v :
  In t registered_tools ->
  tool_fn t vs = Some body ->
  In (EvCall func args kwargs) (events (body st)) ->
  fst (ai func args kwargs st) = Ret v ->
  str_raises v = None ->
  func = tool_method t /\ result (body st) = Ret (py_str v).
Proof.
  intros Ht Hfn Hcall Hret Hstr.
  destruct (tool_call_inv t vs body st func args kwargs Ht Hfn Hcall)
    as (Hf & msg & _ & E).
  split; [exact Hf|]. cbv zeta in E. rewrite E.
  destruct (ai func args kwargs st) as [[v'|e|sig] st']; simpl in Hret;
    try discriminate Hret.
  injection Hret as ->. rewrite Hstr. reflexivity.
Qed.

(** When [str] raises on the value the client returned, the fault is
    caught like a fault of the client. *)
Lemma result_when_str_raises t vs body st func args kwargs v e :
  In t registered_tools ->
  tool_fn t vs = Some body ->
  In (EvCall func args kwargs) (events (body st)) ->
  fst (ai func args kwargs st) = Ret v ->
  str_raises v = Some e ->
  result (body st) = Ret (error_text func e).
Proof.
  intros Ht Hfn Hcall Hret Hstr.
  destruct (tool_call_inv t vs body st func args kwargs Ht Hfn Hcall)
    as (Hf & msg & _ & E).
  cbv zeta in E. rewrite E.
  destruct (ai func args kwargs st) as [[v'|e'|sig] st']; simpl in Hret;
    try discriminate Hret.
  injection Hret as ->. rewrite Hstr. reflexivity.
Qed.



(** C4 (the code breaks it): whatever [openshift] the caller supplies,
    [create_manifests] forwards [openshift=False] to [upload_manifests];
    [cluster_name] and [directory] are forwarded as supplied. *)
Theorem create_manifests_forwards_false (cluster_name directory openshift : value)
    (st : ClientState) :
  filter is_call (events (create_manifests cluster_name directory openshift st))
  = [EvCall ai_upload_manifests [cluster_name; directory] [("openshift", VBool false)]].
Proof.
  unfold create_manifests. rewrite log_then_call, handle_api_call_run. cbv zeta.
  destruct (ai ai_upload_manifests [cluster_name; directory]
              [("openshift", VBool false)] st) as [[v|e|sig] st'];
    [destruct (str_raises v)| |]; reflexivity.
Qed.


(** C5 (amended): when [OFFLINE_TOKEN] is unset or set to the empty
    string, start-up raises [ValueError] at once: no client is built, no
    tool is registered, nothing is served.  When it is set to a non-empty
    string, the first thing start-up does is to construct the client with
    that token. *)
Theorem startup_needs_nonempty_token environ name__ served st :
  match getenv environ "OFFLINE_TOKEN" with
  | Some (String c s) =>
      exists rest,
        events (startup environ name__ served st)
        = EvInit API_URL (String c s) DEBUG_MODE :: rest
  | _ =>
      startup environ name__ served st
      = (Raise (ValueError "OFFLINE_TOKEN environment variable is not set"), [], st)
  end.
Proof.
  unfold startup.
  destruct (getenv environ "OFFLINE_TOKEN") as [[|c s]|]; try reflexivity.
  cbn [truthy negb String.eqb]. unfold bind at 1, try_except, bind at 1, new_client.
  destruct (AssistedClient API_URL (String c s) DEBUG_MODE st) as [[[]|e|sig] st1].
  - cbn -[registered_tools].
    destruct ((register registered_tools;;
               (if (name__ =? "__main__")%string then main served else ret tt)) st1)
      as [[r evs] st2].
    eexists. reflexivity.
  - cbn. eexists. reflexivity.
  - cbn. eexists. reflexivity.
Qed.

(** *** Parameters and defaults *)

Lemma lookup_cons_other p d q kwargs :
  String.eqb p q = false -> lookup q ((p, d) :: kwargs) = lookup q kwargs.
Proof. intros H. simpl. rewrite H. reflexivity. Qed.

(** Supplying the default of [p] changes no bound parameter. *)
Lemma bind_params_default params p d kwargs :
  (forall d', In (p, d') params -> d' = Some d) ->
  lookup p kwargs = None ->
  bind_params params ((p, d) :: kwargs) = bind_params params kwargs.
Proof.
  intros Hdef Hnone. induction params as [|[q dq] rest IH].
  - reflexivity.
  - cbn [bind_params]. rewrite IH by (intros d' H; apply Hdef; right; exact H).
    destruct (String.eqb_spec p q) as [<-|Hne].
    + rewrite Hnone. rewrite (Hdef dq (or_introl eq_refl)).
      simpl. rewrite String.eqb_refl. reflexivity.
    + rewrite lookup_cons_other by (apply String.eqb_neq; exact Hne). reflexivity.
Qed.

Lemma known_keyword_in params p d v :
  In (p, d) params -> known_keyword params (p, v) = true.
Proof.
  intros H. unfold known_keyword. apply existsb_exists. exists p. split.
  - apply in_map_iff. exists (p, d). split; [reflexivity | exact H].
  - apply String.eqb_refl.
Qed.

Lemma bind_args_default params p d kwargs :
  In (p, Some d) params ->
  (forall d', In (p, d') params -> d' = Some d) ->
  lookup p kwargs = None ->
  bind_args params ((p, d) :: kwargs) = bind_args params kwargs.
Proof.
  intros Hin Hdef Hnone. unfold bind_args. cbn [forallb].
  rewrite (known_keyword_in params p (Some d) d Hin). cbn [andb].
  rewrite bind_params_default by assumption. reflexivity.
Qed.

(** In a registered tool a parameter name has one entry. *)
Lemma registered_params_functional t p d d' :
  In t registered_tools ->
  In (p, d) (tool_params t) -> In (p, d') (tool_params t) -> d' = d.
Proof.
  intros Ht H1 H2. unfold registered_tools in Ht.
  tool_cases Ht; simpl in H1, H2;
    repeat (destruct H1 as [H1|H1]; [injection H1 as <- <-|]); try destruct H1;
    repeat (destruct H2 as [H2|H2]; [try discriminate H2; injection H2 as <-|]);
    try destruct H2; reflexivity.
Qed.

(** C7: the defaults of [create_cluster] and [create_manifests] are the
    ones listed ([None] stands for an optional parameter).  A call of
    [create_cluster] is accepted whatever parameters it leaves out, a call
    of [create_manifests] that supplies [cluster_name] and [directory] is
    accepted without [openshift], and the body runs on the supplied values
    with the default in the place of every parameter left out; so an
    invocation that omits a parameter with a default is the invocation
    that supplies that default. *)
Theorem omitted_parameter_takes_default :
  (forall t kwargs,
      In t registered_tools ->
      tool_name t = "create_cluster" ->
      forallb (known_keyword (tool_params t)) kwargs = true ->
      invoke t kwargs
      = Some (create_cluster
                (arg kwargs "cluster_name" VNone)
                (arg kwargs "high_availability_mode" (VStr "Full"))
                (arg kwargs "openshift_version" VNone)
                (arg kwargs "base_dns_domain" VNone)
                (arg kwargs "cluster_network_cidr" (VStr "10.128.0.0/14"))
                (arg kwargs "pull_secret" VNone)
                (arg kwargs "ssh_public_key" VNone)))
  /\ (forall t kwargs cluster_name directory,
         In t registered_tools ->
         tool_name t = "create_manifests" ->
         forallb (known_keyword (tool_params t)) kwargs = true ->
         lookup "cluster_name" kwargs = Some cluster_name ->
         lookup "directory" kwargs = Some directory ->
         invoke t kwargs
         = Some (create_manifests cluster_name directory
                   (arg kwargs "openshift" (VBool false))))
  /\ (forall t p d kwargs,
         In t registered_tools ->
         In (p, Some d) (tool_params t) ->
         lookup p kwargs = None ->
         invoke t ((p, d) :: kwargs) = invoke t kwargs)
  /\ map (fun t' => (tool_name t', tool_params t')) registered_tools
     = [("list_clusters", []);
        ("list_events", [("cluster_name", None)]);
        ("list_manifests", [("cluster_name", None)]);
        ("create_cluster",
         [("cluster_name", Some VNone);
          ("high_availability_mode", Some (VStr "Full"));
          ("openshift_version", Some VNone);
          ("base_dns_domain", Some VNone);
          ("cluster_network_cidr", Some (VStr "10.128.0.0/14"));
          ("pull_secret", Some VNone);
          ("ssh_public_key", Some VNone)]);
        ("delete_cluster", [("cluster_name", None)]);
        ("cluster_info", [("cluster_name", None)]);
        ("update_cluster", [("cluster_name", None)]);
        ("create_manifests",
         [("cluster_name", None); ("directory", None);
          ("openshift", Some (VBool false))]);
        ("delete_manifests", [("cluster_name", None)])].
Proof.
  split; [|split; [|split; [|reflexivity]]].
  - intros t kwargs Ht Hname Hknown. unfold registered_tools in Ht.
    tool_cases Ht; try discriminate Hname.
    unfold invoke, bind_args. rewrite Hknown.
    cbn [tool_params tool_fn bind_params]. unfold arg.
    repeat match goal with
           | |- context [lookup ?k kwargs] => destruct (lookup k kwargs)
           end;
      reflexivity.
  - intros t kwargs cluster_name directory Ht Hname Hknown Hcn Hdir.
    unfold registered_tools in Ht.
    tool_cases Ht; try discriminate Hname.
    unfold invoke, bind_args. rewrite Hknown.
    cbn [tool_params tool_fn bind_params]. unfold arg. rewrite Hcn, Hdir.
    destruct (lookup "openshift" kwargs); reflexivity.
  - intros t p d kwargs Ht Hin Hnone.
    unfold invoke. rewrite (bind_args_default (tool_params t) p d kwargs); auto.
    intros d' H. exact (registered_params_functional t p (Some d) d' Ht Hin H).
Qed.

(** C8: nine tools are registered, one per capability of the client, and
    no two of them share a name. *)
Theorem nine_tools_with_unique_names :
  map tool_name registered_tools
  = ["list_clusters"; "list_events"; "list_manifests"; "create_cluster";
     "delete_cluster"; "cluster_info"; "update_cluster"; "create_manifests";
     "delete_manifests"]
  /\ map tool_method registered_tools
     = [ai_list_clusters; ai_list_events; ai_list_manifests; ai_create_cluster;
        ai_delete_cluster; ai_get_cluster; ai_update_cluster; ai_upload_manifests;
        ai_delete_manifests]
  /\ List.length registered_tools = 9
  /\ NoDup (map tool_name registered_tools)
  /\ NoDup (map tool_method registered_tools).
Proof.
  split; [reflexivity|]. split; [reflexivity|]. split; [reflexivity|].
  split; simpl;
    repeat (constructor; [simpl; intuition discriminate|]); constructor.
Qed.

(** C10: two invocations of [create_cluster] that supply the same
    [cluster_name], [high_availability_mode], [openshift_version] and
    [base_dns_domain] run the same computation, whatever they supply as
    [cluster_network_cidr], [pull_secret] and [ssh_public_key]: the
    client calls they forward, their log records and their results are
    the same. *)
Theorem create_cluster_ignores_three_parameters t kwargs1 kwargs2 body1 body2 :
  In t registered_tools ->
  tool_name t = "create_cluster" ->
  lookup "cluster_name" kwargs1 = lookup "cluster_name" kwargs2 ->
  lookup "high_availability_mode" kwargs1 = lookup "high_availability_mode" kwargs2 ->
  lookup "openshift_version" kwargs1 = lookup "openshift_version" kwargs2 ->
  lookup "base_dns_domain" kwargs1 = lookup "base_dns_domain" kwargs2 ->
  invoke t kwargs1 = Some body1 ->
  invoke t kwargs2 = Some body2 ->
  body1 = body2
  /\ forall st,
      filter is_call (events (body1 st)) = filter is_call (events (body2 st)).
Proof.
  intros Ht Hname H1 H2 H3 H4 Hb1 Hb2.
  assert (E : body1 = body2).
  { unfold registered_tools in Ht.
    tool_cases Ht; try discriminate Hname.
    unfold invoke, bind_args in Hb1, Hb2.
    destruct (forallb _ kwargs1); [|discriminate Hb1].
    destruct (forallb _ kwargs2); [|discriminate Hb2].
    cbn [tool_params tool_fn bind_params] in Hb1, Hb2.
    rewrite H1, H2, H3, H4 in Hb1.
    repeat match type of Hb1 with
           | context [lookup ?k ?kw] => destruct (lookup k kw)
           end;
      repeat match type of Hb2 with
             | context [lookup ?k ?kw] => destruct (lookup k kw)
             end;
      cbn [apply7] in Hb1, Hb2;
      injection Hb1 as <-; injection Hb2 as <-; reflexivity. }
  split; [exact E|]. intros st. rewrite E. reflexivity.
Qed.

(** ** Further properties of the adapter *)

(** *** [handle_api_call] *)

(** The shape of every run of [handle_api_call]. *)
Lemma handle_api_call_shape func args kwargs st :
  exists r evs,
    handle_api_call func args kwargs st
    = (r, calling func args kwargs :: EvCall func args kwargs :: evs,
       snd (ai func args kwargs st))
    /\ filter is_call evs = [].
Proof.
  rewrite handle_api_call_run. cbv zeta.
  destruct (ai func args kwargs st) as [[v|e|sig] st'];
    [destruct (str_raises v)| |]; do 2 eexists; split; reflexivity.
Qed.

(** X1: [handle_api_call] calls the client exactly once, with the method
    and the arguments it was given, and leaves the remote service in the
    state that call left it in: no retry, no second call, also after a
    fault. *)
Theorem handle_api_call_calls_once func args kwargs st :
  filter is_call (events (handle_api_call func args kwargs st))
  = [EvCall func args kwargs]
  /\ final (handle_api_call func args kwargs st) = snd (ai func args kwargs st).
Proof.
  rewrite handle_api_call_run. cbv zeta.
  destruct (ai func args kwargs st) as [[v|e|sig] st'];
    [destruct (str_raises v)| |]; split; reflexivity.
Qed.


(** *** What the tools forward *)

(** X3: every tool other than [create_cluster] and [create_manifests]
    forwards exactly its own parameters, unchanged and in order, as the
    positional arguments of its bound client method, with no keyword
    argument. *)
Theorem plain_tools_forward_their_parameters t vs body st :
  In t registered_tools ->
  tool_name t <> "create_cluster" ->
  tool_name t <> "create_manifests" ->
  tool_fn t vs = Some body ->
  filter is_call (events (body st)) = [EvCall (tool_method t) vs []].
Proof.
  intros Ht Hcc Hcm Hfn. unfold registered_tools in Ht.
  tool_cases Ht; simpl in Hfn, Hcc, Hcm; try congruence;
    unfold apply0, apply1 in Hfn; args_shape vs Hfn;
    unfold list_clusters, list_events, list_manifests, delete_cluster, cluster_info,
      update_cluster, delete_manifests;
    rewrite log_then_call;
    match goal with
    | |- context [handle_api_call ?f ?a ?k st] =>
        destruct (handle_api_call_shape f a k st) as (r & evs & -> & Hevs)
    end;
    unfold events, calling; cbn [fst snd filter is_call]; rewrite Hevs; reflexivity.
Qed.

(** *** [create_cluster] and [dict] *)

Lemma py_dict_returns_dict arg kwargs v :
  py_dict arg kwargs = Ret v -> exists d, v = VDict d.
Proof.
  unfold py_dict. intros H.
  destruct arg; simpl in H; try discriminate H;
    try (destruct (merge_from_seq2 _ _ _); try discriminate H);
    injection H as <-; eexists; reflexivity.
Qed.

(** The run of [create_cluster] once [dict] has returned. *)
Lemma create_cluster_run cluster_name ham ov bdd cidr ps ssh st :
  create_cluster cluster_name ham ov bdd cidr ps ssh st
  = match py_dict cluster_name
            [("base_dns_domain", bdd); ("openshift_version", ov);
             ("high_availability_mode", ham)] with
    | Ret overrides =>
        let '(r, evs, st') :=
          handle_api_call ai_create_cluster [] [("overrides", overrides)] st in
        (r, EvLog INFO ("Creating cluster: " ++ py_str cluster_name
                        ++ ", base_dns_domain: " ++ py_str bdd
                        ++ ", version: " ++ py_str ov
                        ++ ", high_availability_mode: " ++ py_str ham) :: evs, st')
    | Raise e =>
        (Raise e,
         [EvLog INFO ("Creating cluster: " ++ py_str cluster_name
                      ++ ", base_dns_domain: " ++ py_str bdd
                      ++ ", version: " ++ py_str ov
                      ++ ", high_availability_mode: " ++ py_str ham)], st)
    | Exit sig =>
        (Exit sig,
         [EvLog INFO ("Creating cluster: " ++ py_str cluster_name
                      ++ ", base_dns_domain: " ++ py_str bdd
                      ++ ", version: " ++ py_str ov
                      ++ ", high_availability_mode: " ++ py_str ham)], st)
    end.
Proof.
  unfold create_cluster, bind, logger_info, emit, lift. cbn [app].
  destruct (py_dict cluster_name _) as [d|e|sig]; [|reflexivity|reflexivity].
  destruct (handle_api_call ai_create_cluster [] [("overrides", d)] st) as [[r evs] st'].
  reflexivity.
Qed.

(** X4: [create_cluster] called with a [cluster_name] that is not
    iterable - [None], which is the default, a boolean or an integer -
    raises [TypeError] out of the tool after its first log record, and
    calls no client method. *)
Theorem create_cluster_name_not_iterable cluster_name ham ov bdd cidr ps ssh st :
  py_iter cluster_name = None ->
  create_cluster cluster_name ham ov bdd cidr ps ssh st
  = (Raise (TypeError ("'" ++ type_name cluster_name ++ "' object is not iterable")),
     [EvLog INFO ("Creating cluster: " ++ py_str cluster_name
                  ++ ", base_dns_domain: " ++ py_str bdd
                  ++ ", version: " ++ py_str ov
                  ++ ", high_availability_mode: " ++ py_str ham)],
     st).
Proof.
  intros H. rewrite create_cluster_run.
  destruct cluster_name; try discriminate H; reflexivity.
Qed.

(** X5: with a string as [cluster_name], [create_cluster] reaches the
    client only for the empty string, and then the client receives the
    three overrides and nothing of the name. *)
Theorem create_cluster_string_name s ham ov bdd cidr ps ssh st :
  filter is_call (events (create_cluster (VStr s) ham ov bdd cidr ps ssh st))
  = if String.eqb s "" then
      [EvCall ai_create_cluster []
         [("overrides",
           VDict [(VStr "base_dns_domain", bdd); (VStr "openshift_version", ov);
                  (VStr "high_availability_mode", ham)])]]
    else [].
Proof.
  rewrite create_cluster_run. destruct s as [|c s].
  - cbn [py_dict py_iter chars_of merge_from_seq2 merge_kwargs fold_left dict_setitem
           fst snd key_eqb as_number String.eqb].
    match goal with
    | |- context [handle_api_call ?f ?a ?k st] =>
        destruct (handle_api_call_shape f a k st) as (r & evs & -> & Hevs)
    end.
    unfold events, calling; cbn [fst snd filter is_call]; rewrite Hevs; reflexivity.
  - reflexivity.
Qed.

(** X6: whatever [create_cluster] is called with, a client call it makes
    is a call of [ai.create_cluster] with no positional argument and the
    single keyword [overrides], bound to a dictionary. *)
Theorem create_cluster_forwards_only_overrides cluster_name ham ov bdd cidr ps ssh st ev :
  In ev (events (create_cluster cluster_name ham ov bdd cidr ps ssh st)) ->
  is_call ev = true ->
  exists d, ev = EvCall ai_create_cluster [] [("overrides", VDict d)].
Proof.
  rewrite create_cluster_run. intros Hin Hcall.
  destruct (py_dict cluster_name _) as [o|e|sig] eqn:Ed.
  - destruct (py_dict_returns_dict _ _ _ Ed) as [d ->]. exists d.
    destruct (handle_api_call_shape ai_create_cluster [] [("overrides", VDict d)] st)
      as (r & evs & E & Hevs).
    rewrite E in Hin. unfold events, calling in Hin. cbn [fst snd] in Hin.
    destruct Hin as [<-|[<-|[<-|Hin]]]; try discriminate Hcall; [reflexivity|].
    assert (Hf : In ev (filter is_call evs)) by (apply filter_In; split; assumption).
    rewrite Hevs in Hf. destruct Hf.
  - simpl in Hin. destruct Hin as [<-|[]]. discriminate Hcall.
  - simpl in Hin. destruct Hin as [<-|[]]. discriminate Hcall.
Qed.

Lemma key_eqb_str_refl k : key_eqb (VStr k) (VStr k) = true.
Proof. simpl. apply String.eqb_refl. Qed.

Lemma key_eqb_str_inv k0 k : key_eqb k0 (VStr k) = true -> k0 = VStr k.
Proof.
  destruct k0; simpl; try discriminate.
  intros H. apply String.eqb_eq in H. now subst.
Qed.

Lemma dict_getitem_setitem_same d k v :
  dict_getitem (dict_setitem d (VStr k) v) (VStr k) = Some v.
Proof.
  induction d as [|[k0 v0] d IH]; cbn [dict_setitem dict_getitem].
  - rewrite key_eqb_str_refl. reflexivity.
  - destruct (key_eqb k0 (VStr k)) eqn:E; cbn [dict_getitem]; rewrite E.
    + reflexivity.
    + exact IH.
Qed.

Lemma dict_getitem_setitem_other d k v key :
  key_eqb (VStr k) key = false ->
  dict_getitem (dict_setitem d (VStr k) v) key = dict_getitem d key.
Proof.
  intros Hne. induction d as [|[k0 v0] d IH]; cbn [dict_setitem dict_getitem].
  - rewrite Hne. reflexivity.
  - destruct (key_eqb k0 (VStr k)) eqn:E; cbn [dict_getitem].
    + apply key_eqb_str_inv in E. subst k0. rewrite Hne. reflexivity.
    + rewrite IH. reflexivity.
Qed.

(** X7: with a dictionary as [cluster_name], the dictionary forwarded as
    [overrides] holds [base_dns_domain], [openshift_version] and
    [high_availability_mode] as the caller supplied them as parameters,
    whatever the dictionary held under these keys, and holds every other
    key as the dictionary did. *)
Theorem create_cluster_dict_name d ham ov bdd cidr ps ssh st :
  exists o,
    filter is_call (events (create_cluster (VDict d) ham ov bdd cidr ps ssh st))
    = [EvCall ai_create_cluster [] [("overrides", VDict o)]]
    /\ dict_getitem o (VStr "base_dns_domain") = Some bdd
    /\ dict_getitem o (VStr "openshift_version") = Some ov
    /\ dict_getitem o (VStr "high_availability_mode") = Some ham
    /\ forall key,
        key_eqb (VStr "base_dns_domain") key = false ->
        key_eqb (VStr "openshift_version") key = false ->
        key_eqb (VStr "high_availability_mode") key = false ->
        dict_getitem o key = dict_getitem d key.
Proof.
  eexists. split; [|split; [|split; [|split]]].
  - rewrite create_cluster_run. cbn [py_dict].
    match goal with
    | |- context [handle_api_call ?f ?a ?k st] =>
        destruct (handle_api_call_shape f a k st) as (r & evs & -> & Hevs)
    end.
    unfold events, calling; cbn [fst snd filter is_call]; rewrite Hevs; reflexivity.
  - cbn [merge_kwargs fold_left fst snd].
    rewrite !dict_getitem_setitem_other by reflexivity.
    apply dict_getitem_setitem_same.
  - cbn [merge_kwargs fold_left fst snd].
    rewrite dict_getitem_setitem_other by reflexivity.
    apply dict_getitem_setitem_same.
  - cbn [merge_kwargs fold_left fst snd]. apply dict_getitem_setitem_same.
  - intros key H1 H2 H3. cbn [merge_kwargs fold_left fst snd].
    rewrite !dict_getitem_setitem_other by assumption. reflexivity.
Qed.

(** *** Start-up *)

Lemma register_run tools st :
  register tools st
  = (Ret tt, map (fun t => EvTool (tool_name t) (tool_description t)) tools, st).
Proof.
  induction tools as [|t rest IH]; [reflexivity|].
  cbn [register map]. unfold bind, emit. rewrite IH. reflexivity.
Qed.

(** The run of [startup] once the token is there. *)
Lemma startup_run environ name__ served st c s :
  getenv environ "OFFLINE_TOKEN" = Some (String c s) ->
  startup environ name__ served st
  = match AssistedClient API_URL (String c s) DEBUG_MODE st with
    | (Raise e, st') =>
        (Raise e,
         [EvInit API_URL (String c s) DEBUG_MODE;
          EvLog ERROR ("Failed to initialize AssistedClient: " ++ exc_msg e)], st')
    | (Exit sig, st') => (Exit sig, [EvInit API_URL (String c s) DEBUG_MODE], st')
    | (Ret _, st') =>
        let boot :=
          (EvInit API_URL (String c s) DEBUG_MODE
           :: EvLog INFO "Successfully initialized AssistedClient"
           :: registrations)%list in
        if String.eqb name__ "__main__" then
          match served with
          | ServeReturned =>
              (Ret tt,
               (boot ++ [EvLog INFO "Starting MCP server..."; EvRun "sse"])%list, st')
          | ServeInterrupted =>
              (Ret tt,
               (boot ++ [EvLog INFO "Starting MCP server..."; EvRun "sse";
                         EvLog INFO "Server stopped by user"])%list, st')
          | ServeCrashed e =>
              (Raise e,
               (boot ++ [EvLog INFO "Starting MCP server..."; EvRun "sse";
                         EvLog ERROR ("Server crashed with error: " ++ exc_msg e)])%list,
               st')
          end
        else (Ret tt, boot, st')
    end.
Proof.
  intros Htok. unfold startup. rewrite Htok.
  cbn [truthy negb String.eqb]. unfold bind at 1, try_except, bind at 1, new_client.
  destruct (AssistedClient API_URL (String c s) DEBUG_MODE st) as [[[]|e|sig] st1].
  - unfold logger_info at 1, emit at 1. cbn [app].
    unfold bind at 1. rewrite register_run. fold registrations.
    destruct (String.eqb name__ "__main__").
    + unfold main, try_except, bind, mcp_run, logger_info, logger_error, emit, ret, raise.
      destruct served; cbn [app]; rewrite ?app_nil_r; reflexivity.
    + unfold ret. rewrite app_nil_r. reflexivity.
  - reflexivity.
  - reflexivity.
Qed.

(** X8: when the construction of the client raises a fault, start-up logs
    ["Failed to initialize AssistedClient: <message>"] at level ERROR and
    raises that same fault; no tool is registered and nothing is served. *)
Theorem startup_client_failure environ name__ served st c s e st' :
  getenv environ "OFFLINE_TOKEN" = Some (String c s) ->
  AssistedClient API_URL (String c s) DEBUG_MODE st = (Raise e, st') ->
  startup environ name__ served st
  = (Raise e,
     [EvInit API_URL (String c s) DEBUG_MODE;
      EvLog ERROR ("Failed to initialize AssistedClient: " ++ exc_msg e)],
     st').
Proof.
  intros Htok Hinit. rewrite (startup_run _ _ _ _ c s Htok), Hinit. reflexivity.
Qed.

(** X9: the server is run exactly when the token is set and not empty,
    the client was constructed and the file is the main module. *)
Theorem startup_serves_iff environ name__ served st :
  existsb is_run (events (startup environ name__ served st))
  = match getenv environ "OFFLINE_TOKEN" with
    | Some (String c s) =>
        match fst (AssistedClient API_URL (String c s) DEBUG_MODE st) with
        | Ret _ => String.eqb name__ "__main__"
        | _ => false
        end
    | _ => false
    end.
Proof.
  destruct (getenv environ "OFFLINE_TOKEN") as [[|c s]|] eqn:Htok.
  - unfold startup. rewrite Htok. reflexivity.
  - rewrite (startup_run _ _ _ _ c s Htok).
    destruct (AssistedClient API_URL (String c s) DEBUG_MODE st) as [[[]|e|sig] st1];
      [|reflexivity|reflexivity].
    destruct (String.eqb name__ "__main__"); [destruct served|]; reflexivity.
  - unfold startup. rewrite Htok. reflexivity.
Qed.

(** X10: start-up calls no method of the client, whatever the
    environment, the constructor and the server do. *)
Theorem startup_calls_no_method environ name__ served st :
  filter is_call (events (startup environ name__ served st)) = [].
Proof.
  destruct (getenv environ "OFFLINE_TOKEN") as [[|c s]|] eqn:Htok.
  - unfold startup. rewrite Htok. reflexivity.
  - rewrite (startup_run _ _ _ _ c s Htok).
    destruct (AssistedClient API_URL (String c s) DEBUG_MODE st) as [[[]|e|sig] st1];
      [|reflexivity|reflexivity].
    destruct (String.eqb name__ "__main__"); [destruct served|]; reflexivity.
  - unfold startup. rewrite Htok. reflexivity.
Qed.

(** X11: once the client is constructed, start-up registers the nine
    tools, each once and in the order of the file, before the server is
    run and also when it is not run. *)
Theorem startup_registers_the_tools environ name__ served st c s u st' :
  getenv environ "OFFLINE_TOKEN" = Some (String c s) ->
  AssistedClient API_URL (String c s) DEBUG_MODE st = (Ret u, st') ->
  filter is_tool (before_run (events (startup environ name__ served st)))
  = [EvTool "list_clusters" "list openshift clusters";
     EvTool "list_events" "list openshift cluster events";
     EvTool "list_manifests" "list openshift cluster manifests";
     EvTool "create_cluster" "create a new openshift cluster";
     EvTool "delete_cluster" "delete an openshift cluster";
     EvTool "cluster_info" "get information about an openshift cluster";
     EvTool "update_cluster" "update an openshift cluster";
     EvTool "create_manifests" "create manifests for an openshift cluster";
     EvTool "delete_manifests" "delete manifests for an openshift cluster"]
  /\ filter is_tool (events (startup environ name__ served st))
     = filter is_tool (before_run (events (startup environ name__ served st))).
Proof.
  intros Htok Hinit. rewrite (startup_run _ _ _ _ c s Htok), Hinit.
  destruct (String.eqb name__ "__main__"); [destruct served|]; split; reflexivity.
Qed.

(** X12: run as the main module with the client constructed, start-up
    ends as the server ends: it returns when [mcp.run] returns, it logs
    ["Server stopped by user"] and returns when the user interrupts the
    server, and it logs the crash at level ERROR and raises the same fault
    when [mcp.run] raises one.  The server is run with the transport
    ["sse"], after the record ["Starting MCP server..."]. *)
Theorem startup_as_main environ served st c s u st' :
  getenv environ "OFFLINE_TOKEN" = Some (String c s) ->
  AssistedClient API_URL (String c s) DEBUG_MODE st = (Ret u, st') ->
  let run := startup environ "__main__" served st in
  result run = match served with ServeCrashed e => Raise e | _ => Ret tt end
  /\ final run = st'
  /\ events run
     = ((EvInit API_URL (String c s) DEBUG_MODE
         :: EvLog INFO "Successfully initialized AssistedClient"
         :: registrations)
        ++ [EvLog INFO "Starting MCP server..."; EvRun "sse"]
        ++ match served with
           | ServeReturned => []
           | ServeInterrupted => [EvLog INFO "Server stopped by user"]
           | ServeCrashed e => [EvLog ERROR ("Server crashed with error: " ++ exc_msg e)]
           end)%list.
Proof.
  intros Htok Hinit run. subst run.
  rewrite (startup_run _ _ _ _ c s Htok), Hinit. cbn [String.eqb Ascii.eqb Bool.eqb].
  destruct served; repeat split; reflexivity.
Qed.

(** X13: loaded as a module and not run, the file constructs the client
    and registers the tools, and start-up returns without running the
    server. *)
Theorem startup_as_import environ name__ served st c s u st' :
  getenv environ "OFFLINE_TOKEN" = Some (String c s) ->
  AssistedClient API_URL (String c s) DEBUG_MODE st = (Ret u, st') ->
  String.eqb name__ "__main__" = false ->
  startup environ name__ served st
  = (Ret tt,
     EvInit API_URL (String c s) DEBUG_MODE
     :: EvLog INFO "Successfully initialized AssistedClient"
     :: registrations,
     st').
Proof.
  intros Htok Hinit Hname. rewrite (startup_run _ _ _ _ c s Htok), Hinit, Hname.
  reflexivity.
Qed.

(** *** Keyword binding and consecutive invocations *)

Lemma bind_params_ext params kwargs1 kwargs2 :
  (forall k, lookup k kwargs1 = lookup k kwargs2) ->
  bind_params params kwargs1 = bind_params params kwargs2.
Proof.
  intros H. induction params as [|[p d] rest IH]; [reflexivity|].
  cbn [bind_params]. rewrite IH, (H p). reflexivity.
Qed.

Lemma lookup_none_iff k kwargs : lookup k kwargs = None <-> ~ In k (map fst kwargs).
Proof using.
  induction kwargs as [|[q v] rest IH]; cbn [lookup map fst In].
  - split; [intros _ [] | reflexivity].
  - destruct (String.eqb_spec q k) as [->|Hne].
    + split; [discriminate | intros H; exfalso; apply H; left; reflexivity].
    + split.
      * intros H [Hq|Hin]; [exact (Hne Hq) | exact (proj1 IH H Hin)].
      * intros H. apply IH. intros Hin. apply H. right. exact Hin.
Qed.

Lemma known_keywords_iff params kwargs :
  forallb (known_keyword params) kwargs = true
  <-> forall k, lookup k kwargs <> None -> In k (map fst params).
Proof.
  rewrite forallb_forall. split.
  - intros H k Hk.
    assert (Hin : In k (map fst kwargs)).
    { destruct (in_dec string_dec k (map fst kwargs)) as [Hi|Hn]; [exact Hi|].
      apply lookup_none_iff in Hn. contradiction. }
    apply in_map_iff in Hin. destruct Hin as ([q v] & <- & Hq).
    specialize (H (q, v) Hq). unfold known_keyword in H.
    apply existsb_exists in H. destruct H as (x & Hx & Heq).
    apply String.eqb_eq in Heq. cbn [fst] in *. subst x. exact Hx.
  - intros H [q v] Hq. unfold known_keyword. cbn [fst].
    apply existsb_exists. exists q. split; [|apply String.eqb_refl].
    apply H. intros Hnone. apply lookup_none_iff in Hnone. apply Hnone.
    apply in_map_iff. exists (q, v). split; [reflexivity | exact Hq].
Qed.

(** X14: the invocation of a tool depends on its keyword arguments only
    through the value each keyword is bound to: two calls that bind every
    keyword alike, in whatever order they list them, are refused alike or
    run the same computation. *)
Theorem invoke_ignores_keyword_order t kwargs1 kwargs2 :
  (forall k, lookup k kwargs1 = lookup k kwargs2) ->
  invoke t kwargs1 = invoke t kwargs2.
Proof.
  intros H. unfold invoke, bind_args.
  rewrite (bind_params_ext _ _ _ H).
  assert (E : forallb (known_keyword (tool_params t)) kwargs1
              = forallb (known_keyword (tool_params t)) kwargs2).
  { apply Bool.eq_iff_eq_true. rewrite !known_keywords_iff.
    split; intros Hk k Hl; apply Hk; [rewrite H | rewrite <- H]; exact Hl. }
  rewrite E. reflexivity.
Qed.

(** X15: a registered tool refuses a call that leaves out a parameter
    without default: the body is not run. *)
Theorem invoke_requires_parameters t p kwargs :
  In (p, None) (tool_params t) ->
  lookup p kwargs = None ->
  invoke t kwargs = None.
Proof.
  intros Hin Hnone. unfold invoke, bind_args.
  assert (E : bind_params (tool_params t) kwargs = None).
  { induction (tool_params t) as [|[q d] rest IH]; [destruct Hin|].
    cbn [bind_params]. destruct Hin as [Hq|Hq].
    - injection Hq as -> ->. rewrite Hnone. reflexivity.
    - rewrite (IH Hq).
      destruct (match lookup q kwargs with Some v => Some v | None => d end); reflexivity. }
  rewrite E. destruct (forallb _ kwargs); reflexivity.
Qed.


End Adapter.

Arguments tool_name {ClientState} t.
Arguments tool_description {ClientState} t.
Arguments tool_params {ClientState} t.
Arguments tool_method {ClientState} t.
Arguments tool_fn {ClientState} t vs.
Arguments registered_tools {ClientState} ai str_raises.
Arguments invoke {ClientState} t kwargs.
Arguments call_tool {ClientState} ai str_raises name kwargs.
Arguments handle_api_call {ClientState} ai str_raises func args kwargs st.
Arguments list_clusters {ClientState} ai str_raises st.
Arguments list_events {ClientState} ai str_raises cluster_name st.
Arguments create_cluster {ClientState} ai str_raises cluster_name high_availability_mode
  openshift_version base_dns_domain cluster_network_cidr pull_secret ssh_public_key st.
Arguments delete_cluster {ClientState} ai str_raises cluster_name st.
Arguments cluster_info {ClientState} ai str_raises cluster_name st.
Arguments create_manifests {ClientState} ai str_raises cluster_name directory openshift st.
Arguments startup {ClientState} ai AssistedClient str_raises environ name__ served st.
Arguments registrations {ClientState} ai str_raises.
Arguments delete_manifests {ClientState} ai str_raises cluster_name st.

(** ** Runs against stubs *)

(** [str] of a list, as the tools return it. *)
Example str_of_list : py_str (VList [VStr "a"; VStr "b"]) = "['a', 'b']".
Proof. reflexivity. Qed.

Example str_of_negative : py_str (VInt (-12)) = "-12".
Proof. reflexivity. Qed.

Example repr_of_quote :
  py_repr (VStr "it's") = String dquote ("it's" ++ String dquote "").
Proof. reflexivity. Qed.

Example dict_of_name :
  py_dict (VStr "foo") [("base_dns_domain", VNone)]
  = Raise (ValueError "dictionary update sequence element #0 has length 1; 2 is required").
Proof. reflexivity. Qed.

Example dict_of_none :
  py_dict VNone [] = Raise (TypeError "'NoneType' object is not iterable").
Proof. reflexivity. Qed.

Example dict_of_empty_name :
  py_dict (VStr "") [("a", VInt 1)] = Ret (VDict [(VStr "a", VInt 1)]).
Proof. reflexivity. Qed.

Example dict_of_pairs :
  py_dict (VList [VStr "ab"; VList [VInt 1; VNone]]) [("a", VBool true)]
  = Ret (VDict [(VStr "a", VBool true); (VInt 1, VNone)]).
Proof. reflexivity. Qed.

(** [list_clusters()] against a stub that returns [["a", "b"]]. *)
Example list_clusters_stub :
  list_clusters (stub_returning (VList [VStr "a"; VStr "b"])) cpython_limits tt
  = (Ret "['a', 'b']",
     [EvLog INFO "Listing clusters";
      EvLog INFO "Calling list_clusters with args: (), kwargs: {}";
      EvCall ai_list_clusters [] [];
      EvLog INFO "result is: ['a', 'b']"],
     tt).
Proof. reflexivity. Qed.

(** [delete_cluster("foo")] against a stub that raises [NotFound("foo")]. *)
Example delete_cluster_not_found :
  delete_cluster (stub_raising (NotFound "foo")) cpython_limits (VStr "foo") tt
  = (Ret "Unexpected error in delete_cluster: foo",
     [EvLog INFO "Deleting cluster: foo";
      EvLog INFO "Calling delete_cluster with args: ('foo',), kwargs: {}";
      EvCall ai_delete_cluster [VStr "foo"] [];
      EvLog ERROR "Unexpected error in delete_cluster: foo"],
     tt).
Proof. reflexivity. Qed.

(** [cluster_info] reports the name of the client method, [get_cluster]. *)
Example cluster_info_fault :
  result (cluster_info (stub_raising (NotFound "boom")) cpython_limits (VStr "c1") tt)
  = Ret "Unexpected error in get_cluster: boom"
  /\ contains "cluster_info" "Unexpected error in get_cluster: boom" = false.
Proof. split; reflexivity. Qed.

(** The tool [create_cluster] called by name with a cluster name. *)
Example call_create_cluster_foo :
  exists body,
    call_tool (stub_returning VNone) cpython_limits "create_cluster" [("cluster_name", VStr "foo")]
    = Some body
    /\ body tt
       = (Raise (ValueError
                   "dictionary update sequence element #0 has length 1; 2 is required"),
          [EvLog INFO
             "Creating cluster: foo, base_dns_domain: None, version: None, high_availability_mode: Full"],
          tt).
Proof. eexists. split; reflexivity. Qed.

(** The tool [create_manifests] called by name with [openshift=True]. *)
Example call_create_manifests_true :
  exists body,
    call_tool (stub_returning VNone) cpython_limits "create_manifests"
      [("cluster_name", VStr "c1"); ("directory", VStr "/m"); ("openshift", VBool true)]
    = Some body
    /\ filter is_call (events (body tt))
       = [EvCall ai_upload_manifests [VStr "c1"; VStr "/m"] [("openshift", VBool false)]].
Proof. eexists. split; reflexivity. Qed.

(** A start-up with a token, run as the main module. *)
Example startup_with_token :
  events (startup (stub_returning VNone) stub_init cpython_limits [("OFFLINE_TOKEN", "t0k")]
            "__main__" ServeInterrupted tt)
  = [EvInit "https://api.openshift.com" "t0k" true;
     EvLog INFO "Successfully initialized AssistedClient";
     EvTool "list_clusters" "list openshift clusters";
     EvTool "list_events" "list openshift cluster events";
     EvTool "list_manifests" "list openshift cluster manifests";
     EvTool "create_cluster" "create a new openshift cluster";
     EvTool "delete_cluster" "delete an openshift cluster";
     EvTool "cluster_info" "get information about an openshift cluster";
     EvTool "update_cluster" "update an openshift cluster";
     EvTool "create_manifests" "create manifests for an openshift cluster";
     EvTool "delete_manifests" "delete manifests for an openshift cluster";
     EvLog INFO "Starting MCP server...";
     EvRun "sse";
     EvLog INFO "Server stopped by user"].
Proof. reflexivity. Qed.

(** ** Witnesses and counterexamples *)

(** C2 at [list_clusters] with a stub that returns [["a", "b"]]. *)
Lemma result_is_str_of_returned_value_witness :
  result (list_clusters (stub_returning (VList [VStr "a"; VStr "b"])) cpython_limits tt)
  = Ret (py_str (VList [VStr "a"; VStr "b"])).
Proof.
  refine (proj2 (result_is_str_of_returned_value unit
                   (stub_returning (VList [VStr "a"; VStr "b"])) cpython_limits
                   _ [] _ tt ai_list_clusters [] [] _ _ _ _ _ _)).
  - left. reflexivity.
  - reflexivity.
  - simpl. auto.
  - reflexivity.
  - reflexivity.
Defined.



(** C5, as stated, fails: [OFFLINE_TOKEN] set to the empty string is set,
    and start-up raises before it constructs the client. *)
Lemma empty_token_stops_startup :
  ~ (forall (ClientState : Type) ai AssistedClient str_raises environ name__ served
            (st : ClientState),
        (getenv environ "OFFLINE_TOKEN" = None ->
         exists e, startup ai AssistedClient str_raises environ name__ served st = (Raise e, [], st))
        /\ (forall tok, getenv environ "OFFLINE_TOKEN" = Some tok ->
                        In (EvInit API_URL tok DEBUG_MODE)
                          (events (startup ai AssistedClient str_raises environ name__ served st)))).
Proof.
  intros H.
  destruct (H unit (stub_returning VNone) stub_init cpython_limits [("OFFLINE_TOKEN", "")]
              "__main__" ServeReturned tt) as [_ Hset].
  specialize (Hset "" eq_refl). vm_compute in Hset. exact Hset.
Qed.

(** C7 at [create_cluster] called without [high_availability_mode]:
    the call is accepted and the default ['Full'] reaches the client. *)
Lemma omitted_parameter_takes_default_witness :
  exists body,
    call_tool (stub_returning VNone) cpython_limits "create_cluster"
      [("cluster_name", VDict []); ("base_dns_domain", VStr "example.com")]
    = Some body
    /\ filter is_call (events (body tt))
       = [EvCall ai_create_cluster []
            [("overrides",
              VDict [(VStr "base_dns_domain", VStr "example.com");
                     (VStr "openshift_version", VNone);
                     (VStr "high_availability_mode", VStr "Full")])]].
Proof.
  eexists. split.
  - refine (proj1 (omitted_parameter_takes_default unit (stub_returning VNone)
                     cpython_limits) _
              [("cluster_name", VDict []); ("base_dns_domain", VStr "example.com")]
              (or_intror (or_intror (or_intror (or_introl eq_refl)))) _ _).
    + reflexivity.
    + reflexivity.
  - reflexivity.
Defined.



(** C10 at two invocations that differ in the three parameters. *)
Lemma create_cluster_ignores_three_parameters_witness :
  create_cluster (stub_returning VNone) cpython_limits (VStr "") (VStr "Full") VNone VNone
    (VStr "10.128.0.0/14") (VStr "s3cret") VNone
  = create_cluster (stub_returning VNone) cpython_limits (VStr "") (VStr "Full") VNone VNone
      (VStr "10.0.0.0/8") VNone (VStr "ssh-rsa AAAA").
Proof.
  refine (proj1 (create_cluster_ignores_three_parameters unit (stub_returning VNone) cpython_limits _
                   [("cluster_name", VStr ""); ("pull_secret", VStr "s3cret")]
                   [("cluster_name", VStr ""); ("cluster_network_cidr", VStr "10.0.0.0/8");
                    ("ssh_public_key", VStr "ssh-rsa AAAA")]
                   _ _ _ _ _ _ _ _ _ _)).
  - do 3 right. left. reflexivity.
  - reflexivity.
  - reflexivity.
  - reflexivity.
  - reflexivity.
  - reflexivity.
  - reflexivity.
  - reflexivity.
Defined.

(** ** Witnesses of the further properties *)

(** X3 at [delete_manifests]. *)
Lemma plain_tools_forward_their_parameters_witness :
  filter is_call (events (delete_manifests (stub_returning VNone) cpython_limits (VStr "c1") tt))
  = [EvCall ai_delete_manifests [VStr "c1"] []].
Proof.
  refine (plain_tools_forward_their_parameters unit (stub_returning VNone) cpython_limits
            _ [VStr "c1"] (delete_manifests (stub_returning VNone) cpython_limits (VStr "c1")) tt
            (or_intror (or_intror (or_intror (or_intror (or_intror (or_intror
               (or_intror (or_intror (or_introl eq_refl)))))))))
            _ _ _).
  - discriminate.
  - discriminate.
  - reflexivity.
Defined.

(** X4 at [create_cluster] called with no argument at all. *)
Lemma create_cluster_name_not_iterable_witness :
  exists body,
    call_tool (stub_returning VNone) cpython_limits "create_cluster" [] = Some body
    /\ body tt
       = (Raise (TypeError "'NoneType' object is not iterable"),
          [EvLog INFO
             "Creating cluster: None, base_dns_domain: None, version: None, high_availability_mode: Full"],
          tt).
Proof.
  eexists. split; [reflexivity|].
  refine (create_cluster_name_not_iterable unit (stub_returning VNone) cpython_limits
            VNone (VStr "Full") VNone VNone (VStr "10.128.0.0/14") VNone VNone tt _).
  reflexivity.
Defined.

(** X6 at an empty [cluster_name]. *)
Lemma create_cluster_forwards_only_overrides_witness :
  exists d,
    EvCall ai_create_cluster []
      [("overrides",
        VDict [(VStr "base_dns_domain", VStr "example.com"); (VStr "openshift_version", VNone);
               (VStr "high_availability_mode", VStr "Full")])]
    = EvCall ai_create_cluster [] [("overrides", VDict d)].
Proof.
  refine (create_cluster_forwards_only_overrides unit (stub_returning VNone) cpython_limits
            (VStr "") (VStr "Full") VNone (VStr "example.com") (VStr "10.128.0.0/14")
            VNone VNone tt _ _ _).
  - simpl. auto.
  - reflexivity.
Defined.

(** X8 with a constructor that refuses the token. *)
Lemma startup_client_failure_witness :
  startup (stub_returning VNone) (stub_init_failing (mkExc "Exception" false "bad token")) cpython_limits
    [("OFFLINE_TOKEN", "t0k")] "__main__" ServeReturned tt
  = (Raise (mkExc "Exception" false "bad token"),
     [EvInit API_URL "t0k" DEBUG_MODE;
      EvLog ERROR "Failed to initialize AssistedClient: bad token"],
     tt).
Proof.
  refine (startup_client_failure unit (stub_returning VNone)
            (stub_init_failing (mkExc "Exception" false "bad token")) cpython_limits
            [("OFFLINE_TOKEN", "t0k")] "__main__" ServeReturned tt
            "t" "0k" (mkExc "Exception" false "bad token") tt _ _).
  - reflexivity.
  - reflexivity.
Defined.

(** X11 with the token second in the environment. *)
Lemma startup_registers_the_tools_witness :
  List.length
    (filter is_tool
       (events (startup (stub_returning VNone) stub_init cpython_limits
                  [("HOME", "/root"); ("OFFLINE_TOKEN", "t0k")] "__main__" ServeReturned tt)))
  = 9.
Proof.
  destruct (startup_registers_the_tools unit (stub_returning VNone) stub_init cpython_limits
              [("HOME", "/root"); ("OFFLINE_TOKEN", "t0k")] "__main__" ServeReturned tt
              "t" "0k" tt tt eq_refl eq_refl) as [H1 H2].
  rewrite H2, H1. reflexivity.
Defined.

(** X12 with a server that crashes. *)
Lemma startup_as_main_witness :
  result (startup (stub_returning VNone) stub_init cpython_limits [("OFFLINE_TOKEN", "t0k")]
            "__main__" (ServeCrashed (mkExc "OSError" false "address already in use")) tt)
  = Raise (mkExc "OSError" false "address already in use").
Proof.
  refine (proj1 (startup_as_main unit (stub_returning VNone) stub_init cpython_limits
                   [("OFFLINE_TOKEN", "t0k")]
                   (ServeCrashed (mkExc "OSError" false "address already in use")) tt
                   "t" "0k" tt tt _ _)).
  - reflexivity.
  - reflexivity.
Defined.

(** X13 with the file loaded under the name [server]. *)
Lemma startup_as_import_witness :
  startup (stub_returning VNone) stub_init cpython_limits [("OFFLINE_TOKEN", "t0k")]
    "server" ServeReturned tt
  = (Ret tt,
     EvInit API_URL "t0k" DEBUG_MODE
     :: EvLog INFO "Successfully initialized AssistedClient"
     :: registrations (stub_returning VNone) cpython_limits,
     tt).
Proof.
  refine (startup_as_import unit (stub_returning VNone) stub_init cpython_limits
            [("OFFLINE_TOKEN", "t0k")] "server" ServeReturned tt "t" "0k" tt tt _ _ _).
  - reflexivity.
  - reflexivity.
  - reflexivity.
Defined.

(** X14 at [create_manifests] with its keywords in two orders. *)
Lemma invoke_ignores_keyword_order_witness :
  call_tool (stub_returning VNone) cpython_limits "create_manifests"
    [("directory", VStr "/m"); ("cluster_name", VStr "c1")]
  = call_tool (stub_returning VNone) cpython_limits "create_manifests"
      [("cluster_name", VStr "c1"); ("directory", VStr "/m")].
Proof.
  refine (invoke_ignores_keyword_order unit _
            [("directory", VStr "/m"); ("cluster_name", VStr "c1")]
            [("cluster_name", VStr "c1"); ("directory", VStr "/m")] _).
  intros k. cbn [lookup].
  destruct (String.eqb_spec "directory" k) as [<-|_]; [reflexivity|].
  destruct (String.eqb_spec "cluster_name" k); reflexivity.
Defined.

(** X15 at [list_events] called without [cluster_name]. *)
Lemma invoke_requires_parameters_witness :
  call_tool (stub_returning VNone) cpython_limits "list_events" [] = None.
Proof.
  refine (invoke_requires_parameters unit _ "cluster_name" [] _ _).
  - simpl. auto.
  - reflexivity.
Defined.


(** ** Runs with a failing [str] and with an exit signal *)

(** An integer of 4301 digits returned by the client: [str] of it raises
    inside [handle_api_call], and the tool returns the error string. *)
Example list_clusters_huge_integer :
  result (list_clusters (stub_returning (VInt (10 ^ 4300))) cpython_limits tt)
  = Ret "Unexpected error in list_clusters: Exceeds the limit (4300 digits) for integer string conversion; use sys.set_int_max_str_digits() to increase the limit".
Proof. vm_compute. reflexivity. Qed.

(** An exit signal out of the client call leaves the tool after the two
    records before the call. *)
Example list_events_exit :
  list_events (stub_exiting SystemExit) cpython_limits (VStr "c1") tt
  = (Exit SystemExit,
     [EvLog INFO "Listing events for cluster: c1";
      EvLog INFO "Calling list_events with args: ('c1',), kwargs: {}";
      EvCall ai_list_events [VStr "c1"] []],
     tt).
Proof. reflexivity. Qed.
